(** * SEVAI: the explainable causal reasoning engine

    A shallow embedding of the causal graph ([causal/graph.py]), the
    confidence scorer ([causal/confidence.py]), the bias detector
    ([causal/bias_detector.py]) and the explainability vault
    ([storage/vault.py]), with the properties the specification states
    about them.

    Conventions of the embedding.
    - Python floats are modelled by exact rationals ([Q]); equalities between
      computed scores are stated with [==].
    - A Python [dict] whose key order is irrelevant (attribute dictionaries
      of nodes and edges) is a [gmap string pyval]; the dictionaries of
      networkx that are iterated (nodes, successors) are association lists
      in insertion order.
    - A method that mutates its object and may raise is a function from the
      state to an outcome and the state it leaves behind.
    - Clock reads ([datetime.now]) are arguments; [datetime], [hashlib],
      [json.dumps] and the builtins [str] and [int] are interfaces ([Class])
      the definitions are parameterised by. *)

From Stdlib Require Import QArith Qminmax Qpower Qround Lia Lqa.
From stdpp Require Import gmap strings list fin_maps.

Set Warnings "-register-all".

(** ** Python values, exceptions, outcomes *)

(** The values that travel through attribute dictionaries, metadata and
    JSON columns. *)
Inductive pyval : Type :=
| PNone
| PBool (b : bool)
| PInt (z : Z)
| PFloat (q : Q)
| PStr (s : string)
| PList (l : list pyval)
| PDict (d : list (string * pyval)).

(** The texts of the f-strings the code raises [ValueError] with. *)
Inductive message : Type :=
| Msg_factor_range (value : Q)
    (* "Confidence factor must be between 0 and 1, got {value}" *)
| Msg_source_missing (source : string)
    (* "Source node {source} not in graph" *)
| Msg_target_missing (target : string)
    (* "Target node {target} not in graph" *)
| Msg_execution_missing (execution_id : Z)
    (* "Execution {execution_id} not found" *)
| Msg_invalid_isoformat (s : string)
    (* datetime.fromisoformat on a malformed string *)
| Msg_invalid_int (v : pyval).
    (* int() on a value that is not a number *)

Inductive exn : Type :=
| ValueError (m : message)
| KeyError (key : string)
| TypeError (v : pyval)
| AttributeError (v : pyval)
| IntegrityError (constraint : string).

Inductive result (A : Type) : Type :=
| Ok (a : A)
| Raise (e : exn).
Arguments Ok {A} a.
Arguments Raise {A} e.

Definition bind {A B : Type} (r : result A) (k : A -> result B) : result B :=
  match r with
  | Ok a => k a
  | Raise e => Raise e
  end.

Notation "x <- r ;;; k" := (bind r (fun x => k))
  (at level 100, r at next level, right associativity).

(** A number as Python's comparison operators see it ([bool] is a subclass
    of [int]). *)
Definition as_num (v : pyval) : option Q :=
  match v with
  | PBool b => Some (if b then 1%Q else 0%Q)
  | PInt z => Some (inject_Z z)
  | PFloat q => Some q
  | _ => None
  end.

Definition Qlt_bool (x y : Q) : bool := negb (Qle_bool y x).

(** ** The confidence scorer ([causal/confidence.py]) *)

Module ConfidenceScorer.
Local Open Scope Q_scope.

(** [ConfidenceLevel]: a [str] subclass used as a name space of constants. *)
Definition HIGH : string := "high".
Definition MEDIUM : string := "medium".
Definition LOW : string := "low".
Definition INSUFFICIENT : string := "insufficient".


Definition THRESHOLD_HIGH : Q := 0.80.
Definition THRESHOLD_MEDIUM : Q := 0.60.
Definition THRESHOLD_LOW : Q := 0.40.









Definition get_level (confidence : Q) : string :=
  if Qle_bool THRESHOLD_HIGH confidence then HIGH
  else if Qle_bool THRESHOLD_MEDIUM confidence then MEDIUM
  else if Qle_bool THRESHOLD_LOW confidence then LOW
  else INSUFFICIENT.


End ConfidenceScorer.

(** ** Insertion-ordered dictionaries

    networkx keeps its nodes and the successors of a node in plain Python
    dictionaries and iterates over them; Python dictionaries iterate in
    insertion order, and assigning to a key that is present keeps its place. *)

Section odict.
Context {V : Type}.

Fixpoint od_get (k : string) (d : list (string * V)) : option V :=
  match d with
  | [] => None
  | (k', v) :: rest => if String.eqb k' k then Some v else od_get k rest
  end.

Fixpoint od_set (k : string) (v : V) (d : list (string * V))
  : list (string * V) :=
  match d with
  | [] => [(k, v)]
  | (k', v') :: rest =>
      if String.eqb k' k then (k, v) :: rest else (k', v') :: od_set k v rest
  end.

Fixpoint od_del (k : string) (d : list (string * V)) : list (string * V) :=
  match d with
  | [] => []
  | (k', v') :: rest =>
      if String.eqb k' k then rest else (k', v') :: od_del k rest
  end.

Definition od_keys (d : list (string * V)) : list string := map fst d.

Definition od_mem (k : string) (d : list (string * V)) : bool :=
  match od_get k d with Some _ => true | None => false end.
End odict.

(** [old.update(new)]: the keys of [new] win. *)
Definition dict_update (old new : gmap string pyval) : gmap string pyval :=
  new ∪ old.

(** ** networkx's [DiGraph], as far as the engine uses it *)

Module nx.

Record node_entry : Type := {
  node_attr : gmap string pyval;                 (* G._node[n] *)
  succ : list (string * gmap string pyval)       (* G._succ[n] *)
}.

(** [G._node] and [G._succ] have the same keys in the same order (a node is
    added to both at once), so one ordered dictionary holds both. *)
Definition DiGraph : Type := list (string * node_entry).

Definition empty : DiGraph := [].

Definition empty_entry : node_entry := {| node_attr := ∅; succ := [] |}.

(** [G.add_node(n, **attr)]: a new node gets [attr]; the attributes of a
    node that exists are updated. *)
Definition add_node (n : string) (attr : gmap string pyval) (G : DiGraph)
  : DiGraph :=
  match od_get n G with
  | None => od_set n {| node_attr := dict_update ∅ attr; succ := [] |} G
  | Some e =>
      od_set n {| node_attr := dict_update (node_attr e) attr;
                  succ := succ e |} G
  end.

(** [G.add_edge(u, v, **attr)]: missing endpoints are created without
    attributes; the attributes of an edge that exists are updated. *)
Definition add_edge (u v : string) (attr : gmap string pyval) (G : DiGraph)
  : DiGraph :=
  let G1 := if od_mem u G then G else od_set u empty_entry G in
  let G2 := if od_mem v G1 then G1 else od_set v empty_entry G1 in
  match od_get u G2 with
  | Some e =>
      let datadict := default ∅ (od_get v (succ e)) in
      od_set u {| node_attr := node_attr e;
                  succ := od_set v (dict_update datadict attr) (succ e) |} G2
  | None => G2
  end.

Definition has_edge (u v : string) (G : DiGraph) : bool :=
  match od_get u G with
  | Some e => od_mem v (succ e)
  | None => false
  end.

Definition remove_edge (G : DiGraph) (uv : string * string) : DiGraph :=
  let '(u, v) := uv in
  match od_get u G with
  | Some e =>
      if od_mem v (succ e) then
        od_set u {| node_attr := node_attr e; succ := od_del v (succ e) |} G
      else G
  | None => G
  end.

(** [G.remove_edges_from(ebunch)]: edges that are absent are skipped. *)
Definition remove_edges_from (ebunch : list (string * string)) (G : DiGraph)
  : DiGraph :=
  fold_left remove_edge ebunch G.

(** [G.nodes(data=True)] *)
Definition nodes_data (G : DiGraph) : list (string * gmap string pyval) :=
  map (fun ne => (fst ne, node_attr (snd ne))) G.

(** [G.edges(data=True)]: by source in node order, then by successor. *)
Definition edges_data (G : DiGraph)
  : list (string * string * gmap string pyval) :=
  flat_map (fun ne => map (fun vd => (fst ne, fst vd, snd vd)) (succ (snd ne)))
           G.

Definition number_of_nodes (G : DiGraph) : nat := length G.
Definition number_of_edges (G : DiGraph) : nat := length (edges_data G).

End nx.

(** ** External interfaces: [datetime] and [hashlib] *)

Class Datetime : Type := {
  datetime : Type;
  isoformat : datetime -> string;
  (* [None]: raises ValueError *)
  fromisoformat : string -> option datetime
}.

Class Hashlib : Type := {
  (* hashlib.md5(s.encode()).hexdigest() *)
  md5_hexdigest : string -> string;
  (* hashlib.sha256(s.encode()).hexdigest() *)
  sha256_hexdigest : string -> string
}.

(** ** The causal graph ([causal/graph.py]) *)

Inductive NodeType : Type := SYMPTOM | DIAGNOSIS | TREATMENT | OUTCOME | EVIDENCE.

Definition NodeType_value (t : NodeType) : string :=
  match t with
  | SYMPTOM => "symptom"
  | DIAGNOSIS => "diagnosis"
  | TREATMENT => "treatment"
  | OUTCOME => "outcome"
  | EVIDENCE => "evidence"
  end.

Inductive EdgeType : Type := CAUSES | TREATED_BY | LEADS_TO | SUPPORTS.

Definition EdgeType_value (t : EdgeType) : string :=
  match t with
  | CAUSES => "causes"
  | TREATED_BY => "treated_by"
  | LEADS_TO => "leads_to"
  | SUPPORTS => "supports"
  end.

Inductive CausalStrength : Type := WEAK | MODERATE | STRONG.

Definition CausalStrength_value (s : CausalStrength) : string :=
  match s with
  | WEAK => "weak"
  | MODERATE => "moderate"
  | STRONG => "strong"
  end.

(** [metadata or {}], [evidence_refs or []] *)
Definition or_empty {A : Type} (o : option (list A)) : list A :=
  match o with
  | Some l => l
  | None => []
  end.

Module CausalNode.
Section defs.
Context `{Datetime}.

Record t : Type := {
  node_id : string;
  node_type : NodeType;
  content : string;
  confidence : Q;
  metadata : list (string * pyval);
  timestamp : datetime
}.

Definition to_dict (self : t) : gmap string pyval :=
  list_to_map
    [("node_id"%string, PStr (node_id self));
     ("node_type"%string, PStr (NodeType_value (node_type self)));
     ("content"%string, PStr (content self));
     ("confidence"%string, PFloat (confidence self));
     ("metadata"%string, PDict (metadata self));
     ("timestamp"%string, PStr (isoformat (timestamp self)))].
End defs.
End CausalNode.

Module CausalEdge.

Record t : Type := {
  source : string;
  target : string;
  edge_type : EdgeType;
  confidence : Q;
  causal_strength : CausalStrength;
  evidence_refs : list string;
  reasoning_type : string;
  metadata : list (string * pyval)
}.

Definition to_dict (self : t) : gmap string pyval :=
  list_to_map
    [("source"%string, PStr (source self));
     ("target"%string, PStr (target self));
     ("edge_type"%string, PStr (EdgeType_value (edge_type self)));
     ("confidence"%string, PFloat (confidence self));
     ("causal_strength"%string,
       PStr (CausalStrength_value (causal_strength self)));
     ("evidence_refs"%string, PList (map PStr (evidence_refs self)));
     ("reasoning_type"%string, PStr (reasoning_type self));
     ("metadata"%string, PDict (metadata self))].

End CausalEdge.

(** The structured document [to_dict] produces and [from_dict] reads: a
    dictionary with five fixed keys; the entries of ["nodes"] and ["edges"]
    are flat dictionaries. *)
Record GraphDoc : Type := {
  doc_graph_id : string;
  doc_created_at : string;
  doc_metadata : list (string * pyval);
  doc_nodes : list (gmap string pyval);
  doc_edges : list (gmap string pyval)
}.

Module CausalGraph.
Section defs.
Context `{Datetime} `{Hashlib}.

Record t : Type := {
  graph_id : string;
  graph : nx.DiGraph;
  created_at : datetime;
  metadata : list (string * pyval)
}.

Definition with_graph (self : t) (G : nx.DiGraph) : t :=
  {| graph_id := graph_id self; graph := G;
     created_at := created_at self; metadata := metadata self |}.

Definition _generate_id (now : datetime) : string :=
  String.substring 0 12 (md5_hexdigest (isoformat now)).

(** [__init__]: [graph_id or self._generate_id()], so that an empty
    [graph_id] is replaced like an absent one.  [now_id] is the clock as
    [_generate_id] reads it, [now] as the constructor does. *)
Definition init (graph_id : option string) (now_id now : datetime) : t :=
  {| graph_id :=
       match graph_id with
       | Some s => if String.eqb s "" then _generate_id now_id else s
       | None => _generate_id now_id
       end;
     graph := nx.empty;
     created_at := now;
     metadata := [] |}.

Definition _generate_node_id (content : string) (node_type : NodeType)
  : string :=
  let content_hash :=
    String.substring 0 8
      (md5_hexdigest (NodeType_value node_type ++ ":" ++ content)) in
  NodeType_value node_type ++ "_" ++ content_hash.

Definition add_node (content : string) (node_type : NodeType)
    (confidence : Q) (metadata : option (list (string * pyval)))
    (node_id : option string) (now : datetime) (self : t) : string * t :=
  let node_id :=
    match node_id with
    | None => _generate_node_id content node_type
    | Some i => i
    end in
  let node :=
    {| CausalNode.node_id := node_id;
       CausalNode.node_type := node_type;
       CausalNode.content := content;
       CausalNode.confidence := confidence;
       CausalNode.metadata := or_empty metadata;
       CausalNode.timestamp := now |} in
  (node_id,
   with_graph self (nx.add_node node_id (CausalNode.to_dict node) (graph self))).

Definition add_symptom content confidence metadata node_id now self :=
  add_node content SYMPTOM confidence metadata node_id now self.
Definition add_treatment content confidence metadata node_id now self :=
  add_node content TREATMENT confidence metadata node_id now self.
Definition add_outcome content confidence metadata node_id now self :=
  add_node content OUTCOME confidence metadata node_id now self.
Definition add_evidence content confidence metadata node_id now self :=
  add_node content EVIDENCE confidence metadata node_id now self.

(** The outcome of [add_edge] and the graph it leaves behind. *)
Definition add_edge (source target : string) (edge_type : EdgeType)
    (confidence : Q) (causal_strength : CausalStrength)
    (evidence_refs : option (list string)) (reasoning_type : string)
    (metadata : option (list (string * pyval))) (self : t)
  : result (string * string) * t :=
  if negb (od_mem source (graph self)) then
    (Raise (ValueError (Msg_source_missing source)), self)
  else if negb (od_mem target (graph self)) then
    (Raise (ValueError (Msg_target_missing target)), self)
  else
    let edge :=
      {| CausalEdge.source := source;
         CausalEdge.target := target;
         CausalEdge.edge_type := edge_type;
         CausalEdge.confidence := confidence;
         CausalEdge.causal_strength := causal_strength;
         CausalEdge.evidence_refs := or_empty evidence_refs;
         CausalEdge.reasoning_type := reasoning_type;
         CausalEdge.metadata := or_empty metadata |} in
    (Ok (source, target),
     with_graph self
       (nx.add_edge source target (CausalEdge.to_dict edge) (graph self))).

Definition get_node (node_id : string) (self : t)
  : option (gmap string pyval) :=
  nx.node_attr <$> od_get node_id (graph self).

Definition get_edge (source target : string) (self : t)
  : option (gmap string pyval) :=
  e ← od_get source (graph self); od_get target (nx.succ e).



(** The comprehension of [prune_low_confidence]:
    [data.get("confidence", 1.0) < threshold], which raises [TypeError]
    on a value that is not a number. *)
Fixpoint edges_below (threshold : Q)
    (edges : list (string * string * gmap string pyval))
  : result (list (string * string)) :=
  match edges with
  | [] => Ok []
  | (u, v, data) :: rest =>
      let c := default (PFloat 1.0) (data !! "confidence") in
      match as_num c with
      | None => Raise (TypeError c)
      | Some q =>
          r <- edges_below threshold rest ;;;
          Ok (if Qlt_bool q threshold then (u, v) :: r else r)
      end
  end.

Definition prune_low_confidence (threshold : Q) (self : t)
  : result nat * t :=
  match edges_below threshold (nx.edges_data (graph self)) with
  | Raise e => (Raise e, self)
  | Ok edges_to_remove =>
      (Ok (length edges_to_remove),
       with_graph self (nx.remove_edges_from edges_to_remove (graph self)))
  end.

(** [{"id": node_id, **data}]: a key ["id"] of [data] would win. *)
Definition node_entry_doc (nd : string * gmap string pyval)
  : gmap string pyval :=
  snd nd ∪ {[ "id"%string := PStr (fst nd) ]}.

(** [{"source": u, "target": v, **data}] *)
Definition edge_entry_doc (uvd : string * string * gmap string pyval)
  : gmap string pyval :=
  let '(u, v, data) := uvd in
  data ∪ <[ "source"%string := PStr u ]> {[ "target"%string := PStr v ]}.

Definition to_dict (self : t) : GraphDoc :=
  {| doc_graph_id := graph_id self;
     doc_created_at := isoformat (created_at self);
     doc_metadata := metadata self;
     doc_nodes := map node_entry_doc (nx.nodes_data (graph self));
     doc_edges := map edge_entry_doc (nx.edges_data (graph self)) |}.

(** [d.pop(key)], for a key that names a node.  The engine's node
    identifiers are strings; a document with another value there is
    outside this model (networkx would take any hashable value) and is
    answered with [TypeError]. *)
Definition pop_id (key : string) (d : gmap string pyval)
  : result (string * gmap string pyval) :=
  match d !! key with
  | None => Raise (KeyError key)
  | Some (PStr s) => Ok (s, delete key d)
  | Some v => Raise (TypeError v)
  end.

Definition load_node (G : result nx.DiGraph) (node_data : gmap string pyval)
  : result nx.DiGraph :=
  G <- G ;;;
  p <- pop_id "id" node_data ;;;
  Ok (nx.add_node (fst p) (snd p) G).

Definition load_edge (G : result nx.DiGraph) (edge_data : gmap string pyval)
  : result nx.DiGraph :=
  G <- G ;;;
  s <- pop_id "source" edge_data ;;;
  t <- pop_id "target" (snd s) ;;;
  Ok (nx.add_edge (fst s) (fst t) (snd t) G).

Definition from_dict (data : GraphDoc) (now_id now : datetime) : result t :=
  let graph0 := init (Some (doc_graph_id data)) now_id now in
  match fromisoformat (doc_created_at data) with
  | None => Raise (ValueError (Msg_invalid_isoformat (doc_created_at data)))
  | Some created =>
      G <- fold_left load_edge (doc_edges data)
             (fold_left load_node (doc_nodes data) (Ok (graph graph0))) ;;;
      Ok {| graph_id := graph_id graph0;
            graph := G;
            created_at := created;
            metadata := doc_metadata data |}
  end.

(** *** Well-formed graphs

    What holds of every graph the methods above build: dictionary keys are
    unique, every edge leads to a node, no node attribute is called ["id"],
    and the attributes ["source"] and ["target"] of an edge, when it has
    them, name its endpoints. *)

Definition edge_ok (u v : string) (d : gmap string pyval) : Prop :=
  (d !! "source"%string = None \/ d !! "source"%string = Some (PStr u))
  /\ (d !! "target"%string = None \/ d !! "target"%string = Some (PStr v)).

Definition entry_ok (keys : list string) (u : string) (e : nx.node_entry)
  : Prop :=
  nx.node_attr e !! "id"%string = None
  /\ List.NoDup (od_keys (nx.succ e))
  /\ forall v d, In (v, d) (nx.succ e) -> In v keys /\ edge_ok u v d.

Definition wf_graph (G : nx.DiGraph) : Prop :=
  List.NoDup (od_keys G)
  /\ forall u e, In (u, e) G -> entry_ok (od_keys G) u e.

Definition wf (self : t) : Prop :=
  graph_id self <> ""%string /\ wf_graph (graph self).

(** *** The graph [from_dict] rebuilds from [to_dict]

    The two [pop] calls of [from_dict] take ["source"] and ["target"] out
    of the attributes of an edge. *)

Definition strip (d : gmap string pyval) : gmap string pyval :=
  delete "target"%string (delete "source"%string d).

Definition strip_succ (vd : string * gmap string pyval)
  : string * gmap string pyval :=
  (fst vd, strip (snd vd)).

Definition reloaded_entry (ne : string * nx.node_entry)
  : string * nx.node_entry :=
  (fst ne, {| nx.node_attr := nx.node_attr (snd ne);
              nx.succ := map strip_succ (nx.succ (snd ne)) |}).

Definition reloaded (G : nx.DiGraph) : nx.DiGraph := map reloaded_entry G.

(** The nodes alone, as they are after the first loop of [from_dict]. *)
Definition bare_entry (ne : string * nx.node_entry) : string * nx.node_entry :=
  (fst ne, {| nx.node_attr := nx.node_attr (snd ne); nx.succ := [] |}).

Definition bare (G : nx.DiGraph) : nx.DiGraph := map bare_entry G.

End defs.
End CausalGraph.

(** ** Python builtins used by the bias detector *)


Section builtins.
Context `{Builtins}.
Local Open Scope Q_scope.


End builtins.






(** ** The bias detector ([causal/bias_detector.py]) *)

Module BiasDetector.
Section defs.
Context `{Datetime} `{Hashlib} `{Builtins}.
Local Open Scope Q_scope.






(** [node_data.get("confidence", 0.0)] as the second argument of [max]. *)
Definition confidence_of (node_data : gmap string pyval) : result Q :=
  let c := default (PFloat 0.0) (node_data !! "confidence") in
  match as_num c with
  | Some q => Ok q
  | None => Raise (TypeError c)
  end.











(** Node attributes of the types [add_node] stores: a content that is a
    string and a confidence that is a number (either may be absent). *)
Definition typed_attrs (data : gmap string pyval) : Prop :=
  (exists s, default (PStr "") (data !! "content"%string) = PStr s)
  /\ (exists q, confidence_of data = Ok q).



Definition typed_graph (graph : CausalGraph.t) : Prop :=
  forall n e, In (n, e) (CausalGraph.graph graph) ->
              typed_attrs (nx.node_attr e).

End defs.
End BiasDetector.

(** ** The explainability vault ([storage/vault.py]) *)

(** [json.dumps(data, sort_keys=True)], left to the interpreter. *)
Class Json : Type := {
  json_dumps : pyval -> string
}.

(** What [_get_last_hash] relies on in each of the five tables: the primary
    key [id] and the column [prev_hash]. *)
Class Row (R : Type) : Type := {
  row_id : R -> Z;
  row_prev_hash : R -> option string
}.

Module Input.
Section defs.
Context `{Datetime}.
Record t : Type := {
  id : Z;
  source : string;
  content : string;
  content_hash : string;               (* unique=True *)
  meta_data : list (string * pyval);
  timestamp : datetime;
  prev_hash : option string
}.
#[global] Instance row : Row t := {| row_id := id; row_prev_hash := prev_hash |}.
End defs.
End Input.

Module AgentExecution.
Section defs.
Context `{Datetime}.
Record t : Type := {
  id : Z;
  input_id : Z;
  agent_id : string;
  agent_input : string;
  agent_output : string;
  tool_calls : list pyval;
  duration_ms : option Q;
  timestamp : datetime;
  prev_hash : option string
}.
#[global] Instance row : Row t := {| row_id := id; row_prev_hash := prev_hash |}.
End defs.
End AgentExecution.

Module CausalStep.
Section defs.
Context `{Datetime}.
Record t : Type := {
  id : Z;
  execution_id : Z;
  premise : string;
  conclusion : string;
  confidence : Q;
  evidence_refs : list string;
  reasoning_type : string;
  timestamp : datetime;
  prev_hash : option string
}.
#[global] Instance row : Row t := {| row_id := id; row_prev_hash := prev_hash |}.
End defs.
End CausalStep.

Module PolicyCheck.
Section defs.
Context `{Datetime}.
Record t : Type := {
  id : Z;
  execution_id : Z;
  policy_name : string;
  result : string;
  details : list (string * pyval);
  violations : list pyval;
  timestamp : datetime;
  prev_hash : option string
}.
#[global] Instance row : Row t := {| row_id := id; row_prev_hash := prev_hash |}.
End defs.
End PolicyCheck.

Module Output.
Section defs.
Context `{Datetime}.
Record t : Type := {
  id : Z;
  execution_id : Z;
  conclusion : string;
  confidence : Q;
  risk_flags : list string;
  recommendations : list string;
  timestamp : datetime;
  prev_hash : option string
}.
#[global] Instance row : Row t := {| row_id := id; row_prev_hash := prev_hash |}.
End defs.
End Output.

Module ExplainabilityVault.
Section defs.
Context `{Datetime} `{Hashlib} `{Json}.

(** The database behind the vault: five tables, rows in insertion order. *)
Record t : Type := {
  inputs : list Input.t;
  agent_executions : list AgentExecution.t;
  causal_steps : list CausalStep.t;
  policy_checks : list PolicyCheck.t;
  outputs : list Output.t
}.

(** [Base.metadata.create_all] on a fresh database. *)
Definition init : t :=
  {| inputs := []; agent_executions := []; causal_steps := [];
     policy_checks := []; outputs := [] |}.

Definition _compute_hash (data : pyval) : string :=
  sha256_hexdigest (json_dumps data).

(** [query(table).order_by(table.id.desc()).first()] *)
Definition last_record {R : Type} `{Row R} (rows : list R) : option R :=
  fold_left
    (fun best r =>
       match best with
       | None => Some r
       | Some b => if (row_id b <? row_id r)%Z then Some r else Some b
       end)
    rows None.

Definition _get_last_hash {R : Type} `{Row R} (rows : list R)
  : option string :=
  match last_record rows with
  | Some last_record => row_prev_hash last_record
  | None => None
  end.

(** The key an [INTEGER PRIMARY KEY] column gets on insert: one more than
    the greatest key of the table. *)
Definition next_id {R : Type} `{Row R} (rows : list R) : Z :=
  match last_record rows with
  | Some r => row_id r + 1
  | None => 1
  end.

(** [session.add(record); session.commit()] on [inputs]: the unique
    constraint on [content_hash] makes the commit raise; the handler rolls
    back, which leaves the table as it was, and re-raises. *)
Definition log_input (source content : string)
    (metadata : option (list (string * pyval))) (now : datetime) (self : t)
  : result Z * t :=
  let content_hash := _compute_hash (PDict [("content"%string, PStr content)]) in
  let prev_hash := _get_last_hash (inputs self) in
  let input_record :=
    {| Input.id := next_id (inputs self);
       Input.source := source;
       Input.content := content;
       Input.content_hash := content_hash;
       Input.meta_data := or_empty metadata;
       Input.timestamp := now;
       Input.prev_hash := prev_hash |} in
  if existsb (fun r => String.eqb (Input.content_hash r) content_hash)
             (inputs self)
  then (Raise (IntegrityError "inputs.content_hash"), self)
  else
    (Ok (Input.id input_record),
     {| inputs := inputs self ++ [input_record];
        agent_executions := agent_executions self;
        causal_steps := causal_steps self;
        policy_checks := policy_checks self;
        outputs := outputs self |}).

Definition log_agent_execution (input_id : Z)
    (agent_id agent_input agent_output : string)
    (tool_calls : option (list pyval)) (duration_ms : option Q)
    (now : datetime) (self : t) : result Z * t :=
  let prev_hash := _get_last_hash (agent_executions self) in
  let execution :=
    {| AgentExecution.id := next_id (agent_executions self);
       AgentExecution.input_id := input_id;
       AgentExecution.agent_id := agent_id;
       AgentExecution.agent_input := agent_input;
       AgentExecution.agent_output := agent_output;
       AgentExecution.tool_calls := or_empty tool_calls;
       AgentExecution.duration_ms := duration_ms;
       AgentExecution.timestamp := now;
       AgentExecution.prev_hash := prev_hash |} in
  (Ok (AgentExecution.id execution),
   {| inputs := inputs self;
      agent_executions := agent_executions self ++ [execution];
      causal_steps := causal_steps self;
      policy_checks := policy_checks self;
      outputs := outputs self |}).

Definition log_causal_step (execution_id : Z) (premise conclusion : string)
    (confidence : Q) (evidence_refs : option (list string))
    (reasoning_type : string) (now : datetime) (self : t) : result Z * t :=
  let prev_hash := _get_last_hash (causal_steps self) in
  let step :=
    {| CausalStep.id := next_id (causal_steps self);
       CausalStep.execution_id := execution_id;
       CausalStep.premise := premise;
       CausalStep.conclusion := conclusion;
       CausalStep.confidence := confidence;
       CausalStep.evidence_refs := or_empty evidence_refs;
       CausalStep.reasoning_type := reasoning_type;
       CausalStep.timestamp := now;
       CausalStep.prev_hash := prev_hash |} in
  (Ok (CausalStep.id step),
   {| inputs := inputs self;
      agent_executions := agent_executions self;
      causal_steps := causal_steps self ++ [step];
      policy_checks := policy_checks self;
      outputs := outputs self |}).

Definition log_policy_check
  : Z -> string -> string -> option (list (string * pyval)) ->
    option (list pyval) -> datetime -> t -> result Z * t :=
  fun execution_id policy_name result details violations now self =>
  let prev_hash := _get_last_hash (policy_checks self) in
  let check :=
    {| PolicyCheck.id := next_id (policy_checks self);
       PolicyCheck.execution_id := execution_id;
       PolicyCheck.policy_name := policy_name;
       PolicyCheck.result := result;
       PolicyCheck.details := or_empty details;
       PolicyCheck.violations := or_empty violations;
       PolicyCheck.timestamp := now;
       PolicyCheck.prev_hash := prev_hash |} in
  (Ok (PolicyCheck.id check),
   {| inputs := inputs self;
      agent_executions := agent_executions self;
      causal_steps := causal_steps self;
      policy_checks := policy_checks self ++ [check];
      outputs := outputs self |}).

Definition log_output (execution_id : Z) (conclusion : string)
    (confidence : Q) (risk_flags recommendations : option (list string))
    (now : datetime) (self : t) : result Z * t :=
  let prev_hash := _get_last_hash (outputs self) in
  let output :=
    {| Output.id := next_id (outputs self);
       Output.execution_id := execution_id;
       Output.conclusion := conclusion;
       Output.confidence := confidence;
       Output.risk_flags := or_empty risk_flags;
       Output.recommendations := or_empty recommendations;
       Output.timestamp := now;
       Output.prev_hash := prev_hash |} in
  (Ok (Output.id output),
   {| inputs := inputs self;
      agent_executions := agent_executions self;
      causal_steps := causal_steps self;
      policy_checks := policy_checks self;
      outputs := outputs self ++ [output] |}).

Record StepView : Type := {
  sv_premise : string;
  sv_conclusion : string;
  sv_confidence : Q;
  sv_evidence_refs : list string;
  sv_reasoning_type : string
}.

Record CheckView : Type := {
  cv_policy_name : string;
  cv_result : string;
  cv_details : list (string * pyval);
  cv_violations : list pyval
}.

Record OutputView : Type := {
  ov_conclusion : string;
  ov_confidence : Q;
  ov_risk_flags : list string;
  ov_recommendations : list string
}.

Record Trail : Type := {
  trail_execution_id : Z;
  trail_agent_id : string;
  trail_agent_input : string;
  trail_agent_output : string;
  trail_tool_calls : list pyval;
  trail_duration_ms : option Q;
  trail_causal_steps : list StepView;
  trail_policy_checks : list CheckView;
  trail_output : option OutputView
}.

(** [get_reasoning_trail] only reads. *)
Definition get_reasoning_trail (execution_id : Z) (self : t) : result Trail :=
  match find (fun e => (AgentExecution.id e =? execution_id)%Z)
             (agent_executions self) with
  | None => Raise (ValueError (Msg_execution_missing execution_id))
  | Some execution =>
      let causal_steps :=
        List.filter (fun s => (CausalStep.execution_id s =? execution_id)%Z)
                    (causal_steps self) in
      let policy_checks :=
        List.filter (fun c => (PolicyCheck.execution_id c =? execution_id)%Z)
                    (policy_checks self) in
      let output :=
        find (fun o => (Output.execution_id o =? execution_id)%Z)
             (outputs self) in
      Ok {| trail_execution_id := execution_id;
            trail_agent_id := AgentExecution.agent_id execution;
            trail_agent_input := AgentExecution.agent_input execution;
            trail_agent_output := AgentExecution.agent_output execution;
            trail_tool_calls := AgentExecution.tool_calls execution;
            trail_duration_ms := AgentExecution.duration_ms execution;
            trail_causal_steps :=
              map (fun step =>
                     {| sv_premise := CausalStep.premise step;
                        sv_conclusion := CausalStep.conclusion step;
                        sv_confidence := CausalStep.confidence step;
                        sv_evidence_refs := CausalStep.evidence_refs step;
                        sv_reasoning_type := CausalStep.reasoning_type step |})
                  causal_steps;
            trail_policy_checks :=
              map (fun check =>
                     {| cv_policy_name := PolicyCheck.policy_name check;
                        cv_result := PolicyCheck.result check;
                        cv_details := PolicyCheck.details check;
                        cv_violations := PolicyCheck.violations check |})
                  policy_checks;
            trail_output :=
              option_map
                (fun o =>
                   {| ov_conclusion := Output.conclusion o;
                      ov_confidence := Output.confidence o;
                      ov_risk_flags := Output.risk_flags o;
                      ov_recommendations := Output.recommendations o |})
                output |}
  end.

End defs.
End ExplainabilityVault.

(** ** Stand-ins for the external interfaces

    Used to run the model on concrete inputs: a [datetime] is represented by
    its ISO text, the hash functions and [json.dumps] by injective
    stand-ins. *)

Definition example_datetime : Datetime :=
  {| datetime := string; isoformat := fun d => d; fromisoformat := Some |}.

Definition example_hashlib : Hashlib :=
  {| md5_hexdigest := fun s => s; sha256_hexdigest := fun s => s |}.

Definition example_json : Json :=
  {| json_dumps := fun v =>
       match v with
       | PDict [(k, PStr s)] => (k ++ ":" ++ s)%string
       | _ => ""%string
       end |}.


Definition example_graph : @CausalGraph.t example_datetime :=
  let g0 := @CausalGraph.init example_datetime example_hashlib
              (Some "g1"%string) "2026-01-01T00:00:00+00:00"%string
              "2026-01-01T00:00:00+00:00"%string in
  let g1 := snd (@CausalGraph.add_node example_datetime example_hashlib
                   "fever" SYMPTOM 0.9%Q None None
                   "2026-01-01T00:00:01+00:00"%string g0) in
  let g2 := snd (@CausalGraph.add_node example_datetime example_hashlib
                   "pneumonia" DIAGNOSIS 0.85%Q None None
                   "2026-01-01T00:00:02+00:00"%string g1) in
  snd (@CausalGraph.add_edge example_datetime
         "symptom_symptom:" "diagnosis_diagnosi" CAUSES 0.8%Q STRONG None
         "symbolic" None g2).


(** * Properties *)

(** ** Comparisons on rationals *)



Lemma Qle_bool_false_iff (x y : Q) : Qle_bool x y = false <-> (y < x)%Q.
Proof.
  split; intros Hxy.
  - apply Qnot_le_lt. intros Hle. apply Qle_bool_iff in Hle. congruence.
  - destruct (Qle_bool x y) eqn:E; [|reflexivity].
    apply Qle_bool_iff in E. exfalso. exact (Qlt_not_le _ _ Hxy E).
Qed.

(** ** The confidence scorer *)

Section confidence_props.
Import ConfidenceScorer.
Local Open Scope Q_scope.



















Lemma get_level_cases (c : Q) :
  (0.80 <= c /\ get_level c = "high"%string)
  \/ (0.60 <= c < 0.80 /\ get_level c = "medium"%string)
  \/ (0.40 <= c < 0.60 /\ get_level c = "low"%string)
  \/ (c < 0.40 /\ get_level c = "insufficient"%string).
Proof.
  unfold get_level, THRESHOLD_HIGH, THRESHOLD_MEDIUM, THRESHOLD_LOW.
  destruct (Qle_bool 0.80 c) eqn:E1.
  { left. apply Qle_bool_iff in E1. auto. }
  apply Qle_bool_false_iff in E1.
  destruct (Qle_bool 0.60 c) eqn:E2.
  { right; left. apply Qle_bool_iff in E2. auto. }
  apply Qle_bool_false_iff in E2.
  destruct (Qle_bool 0.40 c) eqn:E3.
  { right; right; left. apply Qle_bool_iff in E3. auto. }
  apply Qle_bool_false_iff in E3.
  right; right; right. auto.
Qed.

(** C7. [get_level] puts a confidence of at least 0.80 in "high", one in
    [0.60, 0.80) in "medium", one in [0.40, 0.60) in "low" and one below
    0.40 in "insufficient": each boundary belongs to the band above it. *)
Theorem get_level_spec (c : Q) :
  (0.80 <= c -> get_level c = "high"%string)
  /\ (0.60 <= c < 0.80 -> get_level c = "medium"%string)
  /\ (0.40 <= c < 0.60 -> get_level c = "low"%string)
  /\ (c < 0.40 -> get_level c = "insufficient"%string).
Proof.
  destruct (get_level_cases c) as [[H1 ->]|[[H1 ->]|[[H1 ->]|[H1 ->]]]];
    repeat split; intros H2; try reflexivity; exfalso; lra.
Qed.

Lemma get_level_spec_witness :
  get_level 0.80 = "high"%string
  /\ get_level 0.60 = "medium"%string
  /\ get_level 0.40 = "low"%string
  /\ get_level 0.30 = "insufficient"%string.
Proof.
  split; [|split; [|split]].
  - apply (get_level_spec 0.80). unfold Qle; simpl; lia.
  - apply (get_level_spec 0.60). unfold Qle, Qlt; simpl; lia.
  - apply (get_level_spec 0.40). unfold Qle, Qlt; simpl; lia.
  - apply (get_level_spec 0.30). unfold Qlt; simpl; lia.
Defined.

End confidence_props.

(** ** Insertion-ordered dictionaries *)

Section odict_props.
Context {V : Type}.
Implicit Types (k : string) (v : V) (d : list (string * V)).

Lemma od_mem_get k d : od_mem k d = true <-> exists v, od_get k d = Some v.
Proof.
  unfold od_mem. destruct (od_get k d); split; eauto; try discriminate.
  intros [? ?]; discriminate.
Qed.

Lemma od_mem_false k d : od_mem k d = false <-> od_get k d = None.
Proof. unfold od_mem. destruct (od_get k d); split; congruence. Qed.

Lemma od_get_None k d : od_get k d = None <-> ~ In k (od_keys d).
Proof.
  induction d as [|[k' v'] d IH]; cbn.
  - tauto.
  - destruct (String.eqb_spec k' k) as [->|Hne].
    + split; [discriminate | intros Hn; exfalso; apply Hn; auto].
    + rewrite IH. tauto.
Qed.

Lemma od_mem_keys k d : od_mem k d = true <-> In k (od_keys d).
Proof.
  destruct (od_mem k d) eqn:E.
  - split; [intros _|reflexivity].
    destruct (in_dec String.string_dec k (od_keys d)) as [Hin|Hn]; [exact Hin|].
    apply od_get_None, od_mem_false in Hn. congruence.
  - apply od_mem_false, od_get_None in E. split; [discriminate | tauto].
Qed.

Lemma od_get_set_eq k v d : od_get k (od_set k v d) = Some v.
Proof.
  induction d as [|[k' v'] d IH]; cbn.
  - rewrite String.eqb_refl. reflexivity.
  - destruct (String.eqb_spec k' k) as [->|Hne]; cbn.
    + rewrite String.eqb_refl. reflexivity.
    + destruct (String.eqb_spec k' k); [contradiction | exact IH].
Qed.

Lemma od_get_set_ne k k0 v d : k <> k0 -> od_get k0 (od_set k v d) = od_get k0 d.
Proof.
  intros Hne. induction d as [|[k' v'] d IH]; cbn.
  - destruct (String.eqb_spec k k0); [contradiction | reflexivity].
  - destruct (String.eqb_spec k' k) as [->|Hne']; cbn.
    + destruct (String.eqb_spec k k0); [contradiction | reflexivity].
    + destruct (String.eqb_spec k' k0); [reflexivity | exact IH].
Qed.

Lemma od_mem_set k k0 v d :
  od_mem k0 (od_set k v d) = (String.eqb k k0 || od_mem k0 d)%bool.
Proof.
  unfold od_mem. destruct (String.eqb_spec k k0) as [->|Hne].
  - rewrite od_get_set_eq. reflexivity.
  - rewrite od_get_set_ne by exact Hne. reflexivity.
Qed.

Lemma od_set_present k v d :
  od_mem k d = true -> od_keys (od_set k v d) = od_keys d.
Proof.
  unfold od_mem. induction d as [|[k' v'] d IH]; cbn.
  - discriminate.
  - destruct (String.eqb_spec k' k) as [->|Hne]; cbn; [reflexivity|].
    intros Hm. f_equal. exact (IH Hm).
Qed.

Lemma od_set_absent k v d : od_get k d = None -> od_set k v d = d ++ [(k, v)].
Proof.
  induction d as [|[k' v'] d IH]; cbn; [reflexivity|].
  destruct (String.eqb_spec k' k) as [->|Hne]; [discriminate|].
  intros Hm. rewrite (IH Hm). reflexivity.
Qed.

Lemma od_keys_set k v d :
  od_keys (od_set k v d)
  = if od_mem k d then od_keys d else od_keys d ++ [k].
Proof.
  destruct (od_mem k d) eqn:E.
  - apply od_set_present, E.
  - apply od_mem_false in E. rewrite (od_set_absent _ _ _ E).
    unfold od_keys. rewrite map_app. reflexivity.
Qed.

Lemma od_get_middle k v d1 d2 :
  ~ In k (od_keys d1) -> od_get k (d1 ++ (k, v) :: d2) = Some v.
Proof.
  induction d1 as [|[k' v'] d1 IH]; cbn; intros Hn.
  - rewrite String.eqb_refl. reflexivity.
  - destruct (String.eqb_spec k' k) as [->|Hne]; [exfalso; auto|].
    apply IH. tauto.
Qed.

Lemma od_set_middle k v v0 d1 d2 :
  ~ In k (od_keys d1) ->
  od_set k v (d1 ++ (k, v0) :: d2) = d1 ++ (k, v) :: d2.
Proof.
  induction d1 as [|[k' v'] d1 IH]; cbn; intros Hn.
  - rewrite String.eqb_refl. reflexivity.
  - destruct (String.eqb_spec k' k) as [->|Hne]; [exfalso; auto|].
    rewrite IH by tauto. reflexivity.
Qed.

Lemma od_get_In k v d : od_get k d = Some v -> In (k, v) d.
Proof.
  induction d as [|[k' v'] d IH]; cbn; [discriminate|].
  destruct (String.eqb_spec k' k) as [->|Hne].
  - intros [= ->]. auto.
  - auto.
Qed.

Lemma od_In_set k v k0 v0 d :
  In (k0, v0) (od_set k v d) -> (k0 = k /\ v0 = v) \/ In (k0, v0) d.
Proof.
  induction d as [|[k' v'] d IH]; cbn.
  - intros [[= <- <-]|[]]. auto.
  - destruct (String.eqb_spec k' k) as [->|Hne]; cbn.
    + intros [[= <- <-]|Hin]; auto.
    + intros [Heq|Hin]; [auto|]. destruct (IH Hin); auto.
Qed.

Lemma od_In_del k k0 v0 d : In (k0, v0) (od_del k d) -> In (k0, v0) d.
Proof.
  induction d as [|[k' v'] d IH]; cbn; [tauto|].
  destruct (String.eqb_spec k' k) as [->|Hne]; cbn; [auto|].
  intros [Heq|Hin]; auto.
Qed.

Lemma od_keys_del_incl k k0 d : In k0 (od_keys (od_del k d)) -> In k0 (od_keys d).
Proof.
  induction d as [|[k' v'] d IH]; cbn; [tauto|].
  destruct (String.eqb_spec k' k) as [->|Hne]; cbn; [auto|].
  intros [Heq|Hin]; auto.
Qed.

Lemma od_NoDup_del k d : List.NoDup (od_keys d) -> List.NoDup (od_keys (od_del k d)).
Proof.
  induction d as [|[k' v'] d IH]; cbn; [auto|].
  intros Hnd. inversion Hnd as [|? ? Hn Hnd']; subst.
  destruct (String.eqb_spec k' k) as [->|Hne]; cbn; [exact Hnd'|].
  constructor; [|auto]. intros Hin. apply Hn. eapply od_keys_del_incl, Hin.
Qed.

Lemma od_keys_set_incl k v k0 d :
  In k0 (od_keys (od_set k v d)) -> k0 = k \/ In k0 (od_keys d).
Proof.
  rewrite od_keys_set. destruct (od_mem k d); [auto|].
  rewrite in_app_iff. cbn. intuition auto.
Qed.

Lemma od_NoDup_set k v d :
  List.NoDup (od_keys d) -> List.NoDup (od_keys (od_set k v d)).
Proof.
  induction d as [|[k' v'] d IH]; cbn; intros Hnd.
  - constructor; [intros []|constructor].
  - inversion Hnd as [|? ? Hn Hnd']; subst.
    destruct (String.eqb_spec k' k) as [->|Hne]; cbn.
    + constructor; assumption.
    + constructor; [|auto].
      intros Hin. apply od_keys_set_incl in Hin as [->|Hin]; auto.
Qed.
End odict_props.

(** ** The causal graph: insertion of nodes and edges *)

Section graph_props.
Context `{Datetime} `{Hashlib}.
Import CausalGraph.

Lemma get_node_None (node_id : string) (g : t) :
  get_node node_id g = None <-> od_mem node_id (graph g) = false.
Proof.
  unfold get_node. rewrite od_mem_false.
  destruct (od_get node_id (graph g)); cbn; split; congruence.
Qed.

(** C2. [add_edge] with a source or a target that is not a node of the
    graph raises [ValueError] and leaves the graph as it was, so that the
    numbers of nodes and of edges are unchanged. *)
Theorem add_edge_missing_endpoint (g : t) (source target : string)
    (edge_type : EdgeType) (confidence : Q) (causal_strength : CausalStrength)
    (evidence_refs : option (list string)) (reasoning_type : string)
    (metadata : option (list (string * pyval))) :
  get_node source g = None \/ get_node target g = None ->
  let out := add_edge source target edge_type confidence causal_strength
                      evidence_refs reasoning_type metadata g in
  (fst out = Raise (ValueError (Msg_source_missing source))
   \/ fst out = Raise (ValueError (Msg_target_missing target)))
  /\ snd out = g
  /\ nx.number_of_nodes (graph (snd out)) = nx.number_of_nodes (graph g)
  /\ nx.number_of_edges (graph (snd out)) = nx.number_of_edges (graph g).
Proof.
  intros Habsent. cbv zeta. unfold add_edge.
  destruct (od_mem source (graph g)) eqn:Es; cbn [negb].
  - destruct (od_mem target (graph g)) eqn:Et; cbn [negb fst snd].
    + exfalso. destruct Habsent as [Hs|Ht].
      * apply get_node_None in Hs. congruence.
      * apply get_node_None in Ht. congruence.
    + auto.
  - cbn [fst snd]. auto.
Qed.

(** An edge between two nodes of the graph is accepted. *)
Lemma add_edge_present (g : t) (source target : string)
    (edge_type : EdgeType) (confidence : Q) (causal_strength : CausalStrength)
    (evidence_refs : option (list string)) (reasoning_type : string)
    (metadata : option (list (string * pyval))) :
  od_mem source (graph g) = true -> od_mem target (graph g) = true ->
  fst (add_edge source target edge_type confidence causal_strength
                evidence_refs reasoning_type metadata g)
  = Ok (source, target).
Proof.
  intros Hs Ht. unfold add_edge. rewrite Hs, Ht. reflexivity.
Qed.





End graph_props.

Lemma add_edge_missing_endpoint_witness :
  let g := @CausalGraph.init example_datetime example_hashlib
             (Some "g1"%string) "t0"%string "t0"%string in
  snd (CausalGraph.add_edge "a" "b" CAUSES 0.8%Q MODERATE None "symbolic" None g)
  = g.
Proof.
  intros g.
  apply (@add_edge_missing_endpoint example_datetime g).
  left. reflexivity.
Defined.

(** ** The causal graph: serialization round trip *)

Section roundtrip.
Context `{Datetime} `{Hashlib}.
Import CausalGraph.

Lemma pop_id_node (u : string) (a : gmap string pyval) :
  a !! "id"%string = None ->
  pop_id "id" (node_entry_doc (u, a)) = Ok (u, a).
Proof.
  intros Hid. unfold pop_id, node_entry_doc. cbn [fst snd].
  rewrite lookup_union_r by exact Hid.
  rewrite lookup_singleton_eq. do 2 f_equal.
  rewrite delete_union, delete_singleton_eq, (delete_id _ _ Hid).
  apply (right_id_L ∅ (∪)).
Qed.

Lemma dict_update_empty (a : gmap string pyval) : dict_update ∅ a = a.
Proof. unfold dict_update. apply (right_id_L ∅ (∪)). Qed.

Lemma od_keys_app {V : Type} (d1 d2 : list (string * V)) :
  od_keys (d1 ++ d2) = od_keys d1 ++ od_keys d2.
Proof. unfold od_keys. apply map_app. Qed.

Lemma NoDup_app_not_in (l1 l2 : list string) (x : string) :
  List.NoDup (l1 ++ x :: l2) -> ~ In x l1 /\ ~ In x l2.
Proof.
  intros Hnd. apply List.NoDup_remove_2 in Hnd.
  rewrite in_app_iff in Hnd. tauto.
Qed.

(** The first loop of [from_dict] rebuilds the nodes in their order. *)
Lemma load_nodes (G acc : nx.DiGraph) :
  (forall u e, In (u, e) G -> nx.node_attr e !! "id"%string = None) ->
  List.NoDup (od_keys acc ++ od_keys G) ->
  fold_left load_node (map node_entry_doc (nx.nodes_data G)) (Ok acc)
  = Ok (acc ++ bare G).
Proof.
  revert acc. induction G as [|[u e] G IH]; intros acc Hid Hnd.
  - cbn. rewrite app_nil_r. reflexivity.
  - cbn [nx.nodes_data map fold_left fst snd].
    unfold load_node at 2. cbn [bind].
    rewrite pop_id_node by (apply (Hid u e); left; reflexivity).
    cbn [bind fst snd].
    cbn [od_keys map fst] in Hnd.
    destruct (NoDup_app_not_in _ _ _ Hnd) as [Hacc _].
    unfold nx.add_node.
    apply od_get_None in Hacc. rewrite Hacc.
    rewrite (od_set_absent _ _ _ Hacc), dict_update_empty.
    fold (nx.nodes_data G).
    rewrite IH.
    + rewrite <- app_assoc. reflexivity.
    + intros u' e' Hin. apply (Hid u' e'). right. exact Hin.
    + rewrite od_keys_app, <- app_assoc. exact Hnd.
Qed.

Lemma pop_edge_source (u v : string) (d : gmap string pyval) :
  edge_ok u v d ->
  pop_id "source" (edge_entry_doc (u, v, d))
  = Ok (u, delete "source"%string (edge_entry_doc (u, v, d))).
Proof.
  intros [Hs _]. unfold pop_id, edge_entry_doc.
  destruct Hs as [Hs|Hs].
  - rewrite lookup_union_r by exact Hs.
    rewrite lookup_insert_eq. reflexivity.
  - rewrite (lookup_union_Some_l _ _ _ _ Hs). reflexivity.
Qed.

Lemma pop_edge_target (u v : string) (d : gmap string pyval) :
  edge_ok u v d ->
  pop_id "target" (delete "source"%string (edge_entry_doc (u, v, d)))
  = Ok (v, strip d).
Proof.
  intros [_ Ht]. unfold pop_id, edge_entry_doc.
  rewrite lookup_delete_ne by discriminate.
  assert (Hl : (d ∪ <["source"%string:=PStr u]> {["target"%string := PStr v]})
               !! "target"%string = Some (PStr v)).
  { destruct Ht as [Ht|Ht].
    - rewrite lookup_union_r by exact Ht.
      rewrite lookup_insert_ne by discriminate.
      apply lookup_singleton_eq.
    - apply lookup_union_Some_l, Ht. }
  rewrite Hl. do 2 f_equal. unfold strip.
  apply map_eq. intros k.
  destruct (decide (k = "target"%string)) as [->|Hkt].
  { rewrite !lookup_delete_eq. reflexivity. }
  rewrite !(lookup_delete_ne _ "target"%string) by congruence.
  destruct (decide (k = "source"%string)) as [->|Hks].
  { rewrite !lookup_delete_eq. reflexivity. }
  rewrite !(lookup_delete_ne _ "source"%string) by congruence.
  rewrite lookup_union, lookup_insert_ne, lookup_singleton_ne by congruence.
  destruct (d !! k); reflexivity.
Qed.

Lemma load_edge_step (G : nx.DiGraph) (u v : string) (d : gmap string pyval) :
  edge_ok u v d ->
  load_edge (Ok G) (edge_entry_doc (u, v, d))
  = Ok (nx.add_edge u v (strip d) G).
Proof.
  intros Hok. unfold load_edge. cbn [bind].
  rewrite (pop_edge_source _ _ _ Hok). cbn [bind fst snd].
  rewrite (pop_edge_target _ _ _ Hok). reflexivity.
Qed.

(** A new edge between two nodes that exist goes to the end of the
    successors of its source. *)
Lemma nx_add_edge_new (pre post : nx.DiGraph) (u v : string)
    (a attr : gmap string pyval) (s : list (string * gmap string pyval)) :
  ~ In u (od_keys pre) ->
  In v (od_keys pre ++ u :: od_keys post) ->
  ~ In v (od_keys s) ->
  nx.add_edge u v attr
    (pre ++ (u, {| nx.node_attr := a; nx.succ := s |}) :: post)
  = pre ++ (u, {| nx.node_attr := a; nx.succ := s ++ [(v, attr)] |}) :: post.
Proof.
  intros Hu Hv Hs. unfold nx.add_edge.
  set (G := pre ++ _ :: post).
  assert (Hmu : od_mem u G = true).
  { apply od_mem_get. eexists. apply od_get_middle, Hu. }
  assert (Hmv : od_mem v G = true).
  { apply od_mem_keys. unfold G. rewrite od_keys_app. exact Hv. }
  rewrite Hmu, Hmv. unfold G.
  rewrite (od_get_middle _ _ _ _ Hu). cbn [nx.succ nx.node_attr].
  apply od_get_None in Hs. rewrite Hs. cbn [default].
  rewrite dict_update_empty, (od_set_absent _ _ _ Hs).
  apply od_set_middle, Hu.
Qed.

(** The second loop of [from_dict], on the edges that leave one node. *)
Lemma load_succ (s_todo s_done : list (string * gmap string pyval))
    (pre post : nx.DiGraph) (u : string) (a : gmap string pyval) :
  ~ In u (od_keys pre) ->
  List.NoDup (od_keys s_done ++ od_keys s_todo) ->
  (forall v d, In (v, d) s_todo ->
               In v (od_keys pre ++ u :: od_keys post) /\ edge_ok u v d) ->
  fold_left load_edge
    (map (fun vd => edge_entry_doc (u, fst vd, snd vd)) s_todo)
    (Ok (pre ++ (u, {| nx.node_attr := a; nx.succ := s_done |}) :: post))
  = Ok (pre ++ (u, {| nx.node_attr := a;
                      nx.succ := s_done ++ map strip_succ s_todo |}) :: post).
Proof.
  intros Hu. revert s_done.
  induction s_todo as [|[v d] s_todo IH]; intros s_done Hnd Hok.
  - cbn. rewrite app_nil_r. reflexivity.
  - cbn [map fold_left fst snd].
    destruct (Hok v d) as [Hv Hvd]; [left; reflexivity|].
    rewrite (load_edge_step _ _ _ _ Hvd).
    cbn [od_keys map fst] in Hnd.
    destruct (NoDup_app_not_in _ _ _ Hnd) as [Hdone _].
    rewrite (nx_add_edge_new _ _ _ _ _ _ _ Hu Hv Hdone).
    rewrite IH.
    + rewrite <- app_assoc. reflexivity.
    + rewrite od_keys_app, <- app_assoc. exact Hnd.
    + intros v' d' Hin. apply Hok. right. exact Hin.
Qed.

Lemma od_keys_reloaded (G : nx.DiGraph) : od_keys (reloaded G) = od_keys G.
Proof. unfold od_keys, reloaded. rewrite map_map. reflexivity. Qed.

Lemma od_keys_bare (G : nx.DiGraph) : od_keys (bare G) = od_keys G.
Proof. unfold od_keys, bare. rewrite map_map. reflexivity. Qed.

(** The second loop of [from_dict] rebuilds the edges in their order. *)
Lemma load_edges (todo done : nx.DiGraph) :
  List.NoDup (od_keys done ++ od_keys todo) ->
  (forall u e, In (u, e) todo ->
               entry_ok (od_keys done ++ od_keys todo) u e) ->
  fold_left load_edge (map edge_entry_doc (nx.edges_data todo))
            (Ok (reloaded done ++ bare todo))
  = Ok (reloaded done ++ reloaded todo).
Proof.
  revert done. induction todo as [|[u e] todo IH]; intros done Hnd Hok.
  - reflexivity.
  - cbn [nx.edges_data flat_map fst snd].
    rewrite map_app, fold_left_app, map_map.
    cbn [bare map bare_entry fst snd].
    cbn [od_keys map fst] in Hnd, Hok.
    destruct (NoDup_app_not_in _ _ _ Hnd) as [Hdone _].
    destruct (Hok u e) as (_ & Hsucc & Hedges); [left; reflexivity|].
    change (bare_entry (u, e))
      with (u, {| nx.node_attr := nx.node_attr e; nx.succ := [] |}).
    change (map bare_entry todo) with (bare todo).
    rewrite (load_succ (nx.succ e) [] (reloaded done) (bare todo) u
               (nx.node_attr e)).
    + cbn [app].
      change (reloaded done ++
              (u, {| nx.node_attr := nx.node_attr e;
                     nx.succ := map strip_succ (nx.succ e) |}) :: bare todo)
        with (reloaded done ++ [reloaded_entry (u, e)] ++ bare todo).
      rewrite app_assoc.
      change (reloaded done ++ [reloaded_entry (u, e)])
        with (reloaded done ++ reloaded [(u, e)]).
      unfold reloaded at 1 2. rewrite <- map_app. fold (reloaded (done ++ [(u, e)])).
      fold (nx.edges_data todo).
      rewrite IH.
      * unfold reloaded. rewrite map_app, <- app_assoc. reflexivity.
      * rewrite od_keys_app, <- app_assoc. exact Hnd.
      * intros u' e' Hin. rewrite od_keys_app, <- app_assoc.
        apply Hok. right. exact Hin.
    + rewrite od_keys_reloaded. exact Hdone.
    + exact Hsucc.
    + intros v d Hin. rewrite od_keys_reloaded, od_keys_bare.
      apply Hedges, Hin.
Qed.

End roundtrip.

(** ** Well-formedness is an invariant of the graph's methods *)

Section wf_props.
Context `{Datetime} `{Hashlib}.
Import CausalGraph.

Lemma entry_ok_incl (ks ks' : list string) (u : string) (e : nx.node_entry) :
  (forall x, In x ks -> In x ks') -> entry_ok ks u e -> entry_ok ks' u e.
Proof.
  intros Hincl (Hid & Hnd & Hedges). repeat split; try assumption.
  - apply Hincl. apply (Hedges v d). assumption.
  - apply (Hedges v d). assumption.
  - apply (Hedges v d). assumption.
Qed.

Lemma od_keys_set_mono {V : Type} (k : string) (v : V) (d : list (string * V))
    (x : string) :
  In x (od_keys d) -> In x (od_keys (od_set k v d)).
Proof.
  rewrite od_keys_set. destruct (od_mem k d); [auto|].
  rewrite in_app_iff. auto.
Qed.

Lemma wf_graph_empty : wf_graph nx.empty.
Proof. split; [constructor | intros u e []]. Qed.

Lemma wf_graph_add_node (n : string) (attr : gmap string pyval)
    (G : nx.DiGraph) :
  attr !! "id"%string = None ->
  wf_graph G -> wf_graph (nx.add_node n attr G).
Proof.
  intros Hattr [Hnd Hent]. unfold nx.add_node.
  destruct (od_get n G) as [e0|] eqn:E; split;
    try (apply od_NoDup_set, Hnd);
    intros u e Hin; apply od_In_set in Hin as [[-> ->]|Hin];
    try (eapply entry_ok_incl; [apply od_keys_set_mono | apply Hent, Hin]).
  - apply od_get_In in E. destruct (Hent _ _ E) as (Hid & Hs & Hedges).
    eapply entry_ok_incl; [apply od_keys_set_mono|].
    repeat split; cbn [nx.node_attr nx.succ]; try assumption.
    + unfold dict_update. apply lookup_union_None. auto.
    + apply (Hedges v d). assumption.
    + apply (Hedges v d). assumption.
    + apply (Hedges v d). assumption.
  - repeat split; cbn [nx.node_attr nx.succ]; try constructor;
      try contradiction.
    unfold dict_update. apply lookup_union_None. split; [exact Hattr|].
    apply lookup_empty.
Qed.

Lemma edge_ok_update (u v : string) (old attr : gmap string pyval) :
  edge_ok u v attr -> edge_ok u v old -> edge_ok u v (dict_update old attr).
Proof.
  unfold edge_ok, dict_update. intros [Hs Ht] [Hs' Ht']. split.
  - destruct Hs as [Hs|Hs].
    + rewrite lookup_union_r by exact Hs. exact Hs'.
    + right. apply lookup_union_Some_l, Hs.
  - destruct Ht as [Ht|Ht].
    + rewrite lookup_union_r by exact Ht. exact Ht'.
    + right. apply lookup_union_Some_l, Ht.
Qed.

Lemma edge_ok_empty (u v : string) : edge_ok u v ∅.
Proof. split; left; apply lookup_empty. Qed.

Lemma wf_graph_add_edge (u v : string) (attr : gmap string pyval)
    (G : nx.DiGraph) :
  od_mem u G = true -> od_mem v G = true -> edge_ok u v attr ->
  wf_graph G -> wf_graph (nx.add_edge u v attr G).
Proof.
  intros Hu Hv Hattr [Hnd Hent]. unfold nx.add_edge. rewrite Hu, Hv.
  apply od_mem_get in Hu as [e0 E]. rewrite E.
  pose proof (od_get_In _ _ _ E) as Hin0.
  destruct (Hent _ _ Hin0) as (Hid & Hs & Hedges).
  split; [apply od_NoDup_set, Hnd|].
  intros u' e Hin. apply od_In_set in Hin as [[-> ->]|Hin];
    (eapply entry_ok_incl; [apply od_keys_set_mono|]); [|apply Hent, Hin].
  split; [exact Hid|]. cbn [nx.succ]. split; [apply od_NoDup_set, Hs|].
  intros v' d' Hin'. apply od_In_set in Hin' as [[-> ->]|Hin'].
  - split; [apply od_mem_keys, Hv|].
    apply edge_ok_update; [exact Hattr|].
    destruct (od_get v (nx.succ e0)) as [d0|] eqn:Ev; cbn [default].
    + apply od_get_In in Ev. apply (Hedges v d0 Ev).
    + apply edge_ok_empty.
  - apply Hedges, Hin'.
Qed.

Lemma wf_graph_remove_edge (G : nx.DiGraph) (uv : string * string) :
  wf_graph G -> wf_graph (nx.remove_edge G uv).
Proof.
  intros [Hnd Hent]. destruct uv as [u v]. unfold nx.remove_edge.
  destruct (od_get u G) as [e0|] eqn:E; [|split; assumption].
  destruct (od_mem v (nx.succ e0)); [|split; assumption].
  pose proof (od_get_In _ _ _ E) as Hin0.
  destruct (Hent _ _ Hin0) as (Hid & Hs & Hedges).
  split; [apply od_NoDup_set, Hnd|].
  intros u' e Hin. apply od_In_set in Hin as [[-> ->]|Hin];
    (eapply entry_ok_incl; [apply od_keys_set_mono|]); [|apply Hent, Hin].
  split; [exact Hid|]. cbn [nx.succ]. split; [apply od_NoDup_del, Hs|].
  intros v' d' Hin'. apply od_In_del in Hin'. apply Hedges, Hin'.
Qed.

Lemma wf_graph_remove_edges_from (ebunch : list (string * string))
    (G : nx.DiGraph) :
  wf_graph G -> wf_graph (nx.remove_edges_from ebunch G).
Proof.
  unfold nx.remove_edges_from. revert G.
  induction ebunch as [|uv l IH]; intros G HG; cbn; [exact HG|].
  apply IH, wf_graph_remove_edge, HG.
Qed.

Lemma substring_nonempty (n : nat) (s : string) :
  s <> ""%string -> String.substring 0 (S n) s <> ""%string.
Proof. destruct s; [congruence | discriminate]. Qed.

(** A graph created with an explicit, non-empty id. *)
Lemma wf_init_explicit (graph_id : string) (now_id now : datetime) :
  graph_id <> ""%string -> wf (init (Some graph_id) now_id now).
Proof.
  intros Hid. split; [|apply wf_graph_empty]. cbn.
  destruct (String.eqb_spec graph_id ""); [contradiction | exact Hid].
Qed.

(** A graph created with a generated id: a digest is never empty. *)
Lemma wf_init (graph_id : option string) (now_id now : datetime) :
  (forall s, md5_hexdigest s <> ""%string) -> wf (init graph_id now_id now).
Proof.
  intros Hmd5. split; [|apply wf_graph_empty]. cbn.
  destruct graph_id as [s|].
  - destruct (String.eqb_spec s ""); [|assumption].
    apply substring_nonempty, Hmd5.
  - apply substring_nonempty, Hmd5.
Qed.

Lemma wf_add_node (content : string) (node_type : NodeType) (confidence : Q)
    (metadata : option (list (string * pyval))) (node_id : option string)
    (now : datetime) (g : t) :
  wf g ->
  wf (snd (add_node content node_type confidence metadata node_id now g)).
Proof.
  intros [Hid HG]. split; [exact Hid|]. cbn.
  apply wf_graph_add_node; [reflexivity | exact HG].
Qed.

Lemma wf_add_edge (source target : string) (edge_type : EdgeType)
    (confidence : Q) (causal_strength : CausalStrength)
    (evidence_refs : option (list string)) (reasoning_type : string)
    (metadata : option (list (string * pyval))) (g : t) :
  wf g ->
  wf (snd (add_edge source target edge_type confidence causal_strength
                    evidence_refs reasoning_type metadata g)).
Proof.
  intros Hwf. unfold add_edge.
  destruct (od_mem source (graph g)) eqn:Es; cbn [negb]; [|exact Hwf].
  destruct (od_mem target (graph g)) eqn:Et; cbn [negb]; [|exact Hwf].
  destruct Hwf as [Hid HG]. split; [exact Hid|]. cbn.
  apply wf_graph_add_edge; try assumption.
  split; right; reflexivity.
Qed.

Lemma wf_prune_low_confidence (threshold : Q) (g : t) :
  wf g -> wf (snd (prune_low_confidence threshold g)).
Proof.
  intros Hwf. unfold prune_low_confidence.
  destruct (edges_below threshold (nx.edges_data (graph g))); [|exact Hwf].
  destruct Hwf as [Hid HG]. split; [exact Hid|]. cbn.
  apply wf_graph_remove_edges_from, HG.
Qed.

End wf_props.

(** ** The round trip through the structured document *)

Section roundtrip_main.
Context `{Datetime} `{Hashlib}.
Import CausalGraph.

Lemma edge_entry_doc_strip (u v : string) (d : gmap string pyval) :
  edge_ok u v d -> edge_entry_doc (u, v, strip d) = edge_entry_doc (u, v, d).
Proof.
  intros [Hs Ht]. unfold edge_entry_doc, strip. apply map_eq. intros k.
  rewrite !lookup_union.
  destruct (decide (k = "target"%string)) as [->|Hkt].
  { rewrite lookup_delete_eq, lookup_insert_ne, lookup_singleton_eq
      by discriminate.
    destruct Ht as [->| ->]; reflexivity. }
  rewrite lookup_delete_ne by congruence.
  destruct (decide (k = "source"%string)) as [->|Hks].
  { rewrite lookup_delete_eq, lookup_insert_eq.
    destruct Hs as [->| ->]; reflexivity. }
  rewrite lookup_delete_ne by congruence. reflexivity.
Qed.

Lemma nodes_data_reloaded (G : nx.DiGraph) :
  nx.nodes_data (reloaded G) = nx.nodes_data G.
Proof. unfold nx.nodes_data, reloaded. rewrite map_map. reflexivity. Qed.

Lemma edges_doc_reloaded (G : nx.DiGraph) :
  (forall u e, In (u, e) G ->
               forall v d, In (v, d) (nx.succ e) -> edge_ok u v d) ->
  map edge_entry_doc (nx.edges_data (reloaded G))
  = map edge_entry_doc (nx.edges_data G).
Proof.
  induction G as [|[u e] G IH]; intros Hok; [reflexivity|].
  cbn [reloaded map nx.edges_data flat_map reloaded_entry fst snd nx.succ].
  rewrite !map_app, !map_map. f_equal.
  - apply map_ext_in. intros [v d] Hin. cbn [strip_succ fst snd].
    apply edge_entry_doc_strip. apply (Hok u e); [left; reflexivity | exact Hin].
  - apply IH. intros u' e' Hin. apply Hok. right. exact Hin.
Qed.

Lemma od_get_strip_succ (v : string) (s : list (string * gmap string pyval)) :
  od_get v (map strip_succ s) = strip <$> od_get v s.
Proof.
  induction s as [|[v' d] s IH]; [reflexivity|].
  cbn [map strip_succ od_get fst snd].
  destruct (String.eqb v' v); [reflexivity | exact IH].
Qed.

Lemma od_get_reloaded (u : string) (G : nx.DiGraph) :
  od_get u (reloaded G)
  = (fun e => {| nx.node_attr := nx.node_attr e;
                 nx.succ := map strip_succ (nx.succ e) |}) <$> od_get u G.
Proof.
  induction G as [|[u' e] G IH]; [reflexivity|].
  cbn [reloaded map reloaded_entry od_get fst snd].
  destruct (String.eqb u' u); [reflexivity | exact IH].
Qed.

(** What [from_dict] returns on the document of a well-formed graph. *)
Lemma from_dict_to_dict (g : t) (now_id now : datetime) :
  (forall d, fromisoformat (isoformat d) = Some d) ->
  wf g ->
  from_dict (to_dict g) now_id now = Ok (with_graph g (reloaded (graph g))).
Proof.
  intros Hiso (Hid & Hnd & Hent). unfold from_dict, to_dict.
  cbn [doc_graph_id doc_created_at doc_metadata doc_nodes doc_edges].
  rewrite Hiso. cbn [init graph graph_id].
  rewrite (load_nodes (graph g) nx.empty).
  - change (nx.empty ++ bare (graph g))
      with (reloaded [] ++ bare (graph g)).
    rewrite load_edges.
    + cbn [bind app reloaded map].
      destruct (String.eqb_spec (graph_id g) ""); [contradiction|].
      reflexivity.
    + exact Hnd.
    + exact Hent.
  - intros u e Hin. apply (Hent u e Hin).
  - exact Hnd.
Qed.

Lemma to_dict_reloaded (g : t) :
  wf g -> to_dict (with_graph g (reloaded (graph g))) = to_dict g.
Proof.
  intros (Hid & Hnd & Hent). unfold to_dict.
  cbn [with_graph graph graph_id created_at metadata].
  rewrite nodes_data_reloaded, edges_doc_reloaded; [reflexivity|].
  intros u e Hin v d Hvd. apply (Hent u e Hin). exact Hvd.
Qed.


(** The attributes the reloaded graph stores for an edge are those of the
    original edge without ["source"] and ["target"], which the edge keeps
    as its endpoints only. *)
Lemma get_edge_reloaded (g : t) (u v : string) :
  get_edge u v (with_graph g (reloaded (graph g)))
  = strip <$> get_edge u v g.
Proof.
  unfold get_edge. cbn [with_graph graph]. rewrite od_get_reloaded.
  destruct (od_get u (graph g)) as [e|]; [|reflexivity].
  cbn. apply od_get_strip_succ.
Qed.

End roundtrip_main.

Lemma example_graph_wf : @CausalGraph.wf example_datetime example_graph.
Proof.
  unfold example_graph.
  apply wf_add_edge, wf_add_node, wf_add_node, wf_init_explicit.
  discriminate.
Qed.


(** On the example graph: the reloaded edge has the fields of the original
    one, and its stored attributes no longer repeat the endpoints. *)
Lemma example_graph_reloaded_edge :
  let s := "symptom_symptom:"%string in
  let t := "diagnosis_diagnosi"%string in
  exists g',
    @CausalGraph.from_dict example_datetime example_hashlib
      (CausalGraph.to_dict example_graph) "now"%string "now"%string = Ok g'
    /\ (CausalGraph.get_edge s t example_graph ≫= (.!! "confidence"%string))
       = Some (PFloat 0.8)
    /\ (CausalGraph.get_edge s t g' ≫= (.!! "confidence"%string))
       = Some (PFloat 0.8)
    /\ (CausalGraph.get_edge s t example_graph ≫= (.!! "source"%string))
       = Some (PStr s)
    /\ (CausalGraph.get_edge s t g' ≫= (.!! "source"%string)) = None
    /\ (CausalGraph.to_dict g' = CausalGraph.to_dict example_graph).
Proof.
  intros s t. eexists. split.
  - apply (@from_dict_to_dict example_datetime example_hashlib).
    + reflexivity.
    + exact example_graph_wf.
  - rewrite get_edge_reloaded.
    split; [reflexivity|]. split; [reflexivity|].
    split; [reflexivity|]. split; [reflexivity|].
    apply to_dict_reloaded, example_graph_wf.
Qed.

(** ** The bias detector *)

Section bias_props.
Context `{Datetime} `{Hashlib} `{Builtins}.
Import BiasDetector.
Local Open Scope Q_scope.
















Lemma typed_graph_add_edge (source target : string) (edge_type : EdgeType)
    (confidence : Q) (causal_strength : CausalStrength)
    (evidence_refs : option (list string)) (reasoning_type : string)
    (md : option (list (string * pyval))) (g : CausalGraph.t) :
  typed_graph g ->
  typed_graph
    (snd (CausalGraph.add_edge source target edge_type confidence
            causal_strength evidence_refs reasoning_type md g)).
Proof.
  intros Htyped. unfold CausalGraph.add_edge.
  destruct (od_mem source _) eqn:Es; cbn [negb]; [|exact Htyped].
  destruct (od_mem target _) eqn:Et; cbn [negb]; [|exact Htyped].
  intros n e. cbn. unfold nx.add_edge. rewrite Es, Et.
  apply od_mem_get in Es as [e0 E]. rewrite E.
  intros Hin. apply od_In_set in Hin as [[-> ->]|Hin].
  - cbn [nx.node_attr]. apply od_get_In in E. apply (Htyped _ _ E).
  - apply (Htyped _ _ Hin).
Qed.

End bias_props.



(** ** The explainability vault *)

Section vault_props.
Context `{Datetime} `{Hashlib} `{Json}.
Import ExplainabilityVault.



(** A known execution id yields a trail. *)
Lemma get_reasoning_trail_known (v : t) (execution_id : Z) :
  (exists e, In e (agent_executions v) /\ AgentExecution.id e = execution_id) ->
  exists trail, get_reasoning_trail execution_id v = Ok trail
                /\ trail_execution_id trail = execution_id.
Proof.
  intros (e & He & Hid). unfold get_reasoning_trail.
  destruct (find _ (agent_executions v)) as [e'|] eqn:E.
  - eexists. split; reflexivity.
  - exfalso. apply (find_none _ _ E) in He. apply Z.eqb_neq in He. auto.
Qed.

Lemma hash_stored (source content : string)
    (metadata : option (list (string * pyval))) (now : datetime) (v : t) :
  existsb
    (fun r => String.eqb (Input.content_hash r)
                (_compute_hash (PDict [("content"%string, PStr content)])))
    (inputs (snd (log_input source content metadata now v))) = true.
Proof.
  unfold log_input.
  destruct (existsb _ (inputs v)) eqn:E; cbn [snd inputs]; [exact E|].
  rewrite existsb_app. cbn [existsb Input.content_hash].
  rewrite String.eqb_refl. apply orb_true_iff. right. reflexivity.
Qed.

(** C9. Of two [log_input] calls with the same content the second raises
    (the unique constraint on [content_hash]) and leaves the vault as the
    first call left it: no second record of that content is stored. *)
Theorem log_input_duplicate_content (v : t) (source1 source2 content : string)
    (metadata1 metadata2 : option (list (string * pyval)))
    (now1 now2 : datetime) :
  let first := log_input source1 content metadata1 now1 v in
  let second := log_input source2 content metadata2 now2 (snd first) in
  fst second = Raise (IntegrityError "inputs.content_hash")
  /\ snd second = snd first
  /\ length (inputs (snd second)) = length (inputs (snd first)).
Proof.
  cbv zeta.
  pose proof (hash_stored source1 content metadata1 now1 v) as Hstored.
  set (v1 := snd (log_input source1 content metadata1 now1 v)) in *.
  unfold log_input at 1 2 3. rewrite Hstored. cbn [fst snd]. auto.
Qed.

(** The first call, on a vault that does not hold the content, stores it. *)
Lemma log_input_fresh (v : t) (source content : string)
    (metadata : option (list (string * pyval))) (now : datetime) :
  (forall r, In r (inputs v) ->
             Input.content_hash r
             <> _compute_hash (PDict [("content"%string, PStr content)])) ->
  exists r,
    log_input source content metadata now v = (Ok (Input.id r),
      {| inputs := inputs v ++ [r];
         agent_executions := agent_executions v;
         causal_steps := causal_steps v;
         policy_checks := policy_checks v;
         outputs := outputs v |})
    /\ Input.content r = content
    /\ Input.content_hash r
       = _compute_hash (PDict [("content"%string, PStr content)])
    /\ Input.prev_hash r = _get_last_hash (inputs v).
Proof.
  intros Hfresh. unfold log_input.
  destruct (existsb _ (inputs v)) eqn:E.
  - apply existsb_exists in E as (r & Hr & Heq).
    apply String.eqb_eq in Heq. exfalso. exact (Hfresh r Hr Heq).
  - eexists. split; [reflexivity|]. repeat split.
Qed.

(** What [_get_last_hash] returns is the [prev_hash] of a row of the
    table, so it is [None] once every row has [None] there. *)
Lemma last_record_In {R : Type} `{Row R} (rows : list R) (r : R) :
  last_record rows = Some r -> In r rows.
Proof.
  unfold last_record.
  assert (Hgen : forall best,
             fold_left
               (fun best r =>
                  match best with
                  | None => Some r
                  | Some b => if (row_id b <? row_id r)%Z then Some r else Some b
                  end) rows best = Some r ->
             best = Some r \/ In r rows).
  { induction rows as [|x rows IH]; intros best Hf; cbn in Hf; [auto|].
    apply IH in Hf as [Hf|Hf]; [|right; right; exact Hf].
    destruct best as [b|].
    - destruct (row_id b <? row_id x)%Z; injection Hf as <-;
        [right; left; reflexivity | left; reflexivity].
    - injection Hf as <-. right; left; reflexivity. }
  intros Hl. apply Hgen in Hl as [Hl|Hl]; [discriminate | exact Hl].
Qed.

Lemma _get_last_hash_None {R : Type} `{Row R} (rows : list R) :
  Forall (fun r => row_prev_hash r = None) rows -> _get_last_hash rows = None.
Proof.
  intros Hall. unfold _get_last_hash.
  destruct (last_record rows) as [r|] eqn:E; [|reflexivity].
  apply last_record_In in E. rewrite List.Forall_forall in Hall.
  apply Hall, E.
Qed.

Lemma log_input_keeps_None (source content : string)
    (metadata : option (list (string * pyval))) (now : datetime) (v : t) :
  Forall (fun r => Input.prev_hash r = None) (inputs v) ->
  Forall (fun r => Input.prev_hash r = None)
         (inputs (snd (log_input source content metadata now v))).
Proof.
  intros Hall. unfold log_input.
  destruct (existsb _ (inputs v)); cbn [snd inputs]; [exact Hall|].
  apply Forall_app. split; [exact Hall|].
  constructor; [|constructor]. cbn [Input.prev_hash].
  apply (_get_last_hash_None (inputs v)), Hall.
Qed.

(** C1, on the code.  After two [log_input] calls on a fresh vault every
    stored record has [prev_hash = None]: [_get_last_hash] hands on the
    [prev_hash] of the last record, not a hash of it.  When the two
    contents hash differently both records are stored, and the [prev_hash]
    of the second is [None] whatever the first record holds. *)
Theorem log_input_prev_hash_unlinked (source1 content1 source2 content2 : string)
    (metadata1 metadata2 : option (list (string * pyval)))
    (now1 now2 : datetime) :
  let v1 := snd (log_input source1 content1 metadata1 now1 init) in
  let v2 := snd (log_input source2 content2 metadata2 now2 v1) in
  Forall (fun r => Input.prev_hash r = None) (inputs v2)
  /\ (_compute_hash (PDict [("content"%string, PStr content1)])
      <> _compute_hash (PDict [("content"%string, PStr content2)]) ->
      exists r1 r2,
        inputs v2 = [r1; r2]
        /\ Input.content r1 = content1 /\ Input.content r2 = content2
        /\ Input.prev_hash r2 = None).
Proof.
  cbv zeta. split.
  - apply log_input_keeps_None, log_input_keeps_None. constructor.
  - intros Hne.
    destruct (log_input_fresh init source1 content1 metadata1 now1)
      as (r1 & E1 & Hc1 & Hh1 & Hp1); [intros r []|].
    rewrite E1. cbn [snd].
    match goal with
    | |- context [log_input _ _ _ _ ?v] =>
        destruct (log_input_fresh v source2 content2 metadata2 now2)
          as (r2 & E2 & Hc2 & _ & Hp2)
    end.
    { cbn [inputs init app]. intros r [<-|[]]. rewrite Hh1. exact Hne. }
    rewrite E2. cbn [snd inputs init app].
    exists r1, r2. repeat split; try assumption.
    rewrite Hp2. cbn [inputs init app].
    apply (_get_last_hash_None [r1]). constructor; [|constructor].
    cbn. exact Hp1.
Qed.

End vault_props.


Lemma log_input_prev_hash_unlinked_witness :
  exists r1 r2,
    ExplainabilityVault.inputs
      (snd (@ExplainabilityVault.log_input example_datetime example_hashlib
              example_json "user" "second" None "t2"%string
              (snd (@ExplainabilityVault.log_input example_datetime
                      example_hashlib example_json "user" "first" None
                      "t1"%string ExplainabilityVault.init))))
    = [r1; r2]
    /\ Input.content r1 = "first"%string /\ Input.content r2 = "second"%string
    /\ Input.prev_hash r2 = None.
Proof.
  apply (@log_input_prev_hash_unlinked example_datetime example_hashlib
           example_json).
  vm_compute. discriminate.
Defined.
